(** * Netatmo alarm control panel: a shallow embedding of
      [custom_components/netatmo_custom/alarm_control_panel.py]

    The entity adapter reads the persons and modules of a shared "home"
    object, calls two remote bulk-presence operations of that home, and
    stores an availability flag and a displayed state.  The embedding keeps
    the shared home in an explicit store, threads it through a small
    state-and-exception monad, and records every outward call in a trace. *)

From stdpp Require Import gmap strings list fin_maps.

Open Scope string_scope.

(** ** Python values used by the adapter *)

(** Truth value of a [bool | None] attribute: [None] is falsy. *)
Definition truthy (v : option bool) : bool :=
  match v with
  | Some b => b
  | None => false
  end.

(** [v or False] for a [bool | None] value [v]. *)
Definition or_False (v : option bool) : bool :=
  match v with
  | Some true => true
  | _ => false
  end.

(** Truth value of a [str]: the empty string is falsy. *)
Definition str_truthy (s : string) : bool :=
  match s with
  | EmptyString => false
  | String _ _ => true
  end.

(** ** Data model (objects borrowed from the client library) *)

(** A person of the home; [out_of_sight] is [bool | None] in the library. *)
Record Person := mkPerson {
  person_entity_id : string;
  pseudo : option string;
  out_of_sight : option bool
}.

(** A module of the home (camera or siren): [bridge] is the parent id,
    [monitoring] is [bool | None]. *)
Record Module_ := mkModule {
  module_entity_id : string;
  bridge : option string;
  monitoring : option bool
}.

(** Instances of the library's classes are plain objects: always truthy. *)
Definition obj_truthy (m : Module_) : bool := true.

(** The home aggregate: persons and modules keyed by id. *)
Record Home := mkHome {
  home_entity_id : string;
  persons : gmap string Person;
  modules : gmap string Module_
}.

(** The three alarm state constants imported from the host platform. *)
Inductive AlarmState :=
  | STATE_ALARM_DISARMED
  | STATE_ALARM_ARMED_AWAY
  | STATE_ALARM_ARMED_HOME.

Global Instance AlarmState_eq_dec : EqDecision AlarmState.
Proof. solve_decision. Defined.

(** The entity description: a key, a name and the list of state labels
    ([None] is the unknown label). *)
Record NetatmoAlarmControlPanelEntityDescription := mkDescription {
  key : string;
  netatmo_name : string;
  netatmo_alarm_states : list (option AlarmState)
}.

Definition ALARM_TYPE : NetatmoAlarmControlPanelEntityDescription :=
  {| key := "netatmo_alarm";
     netatmo_name := "alarm";
     netatmo_alarm_states :=
       [ None;
         Some STATE_ALARM_DISARMED;
         Some STATE_ALARM_ARMED_AWAY;
         Some STATE_ALARM_ARMED_HOME ] |}.

(** ** Derived read-only properties *)

(** [dict.values()] and [dict.keys()] of a mapping keyed by id.  A Python
    dict lists its entries in insertion order; the finite map lists the
    same entries in the order of its keys. *)
Definition values {A} (m : gmap string A) : list A := (map_to_list m).*2.
Definition keys {A} (m : gmap string A) : list string := (map_to_list m).*1.

(** Python's [all] over a list of [bool | None] values. *)
Definition all (l : list (option bool)) : bool := forallb truthy l.

(** [is_house_empty]: all persons are out of sight. *)
Definition is_house_empty (home : Home) : bool :=
  let persons_out_of_sight := out_of_sight <$> values (persons home) in
  all persons_out_of_sight.

(** [is_camera_monitoring]: follow the device's bridge id to the parent
    module and read its monitoring flag. *)
Definition is_camera_monitoring (device : Module_) (home : Home) : bool :=
  match bridge device with
  | Some parent_module_id =>
      if str_truthy parent_module_id then
        match modules home !! parent_module_id with
        | Some parent_module =>
            if obj_truthy parent_module then or_False (monitoring parent_module)
            else false
        | None => false
        end
      else false
  | None => false
  end.

(** [is_siren_monitoring]: the device's own monitoring flag. *)
Definition is_siren_monitoring (device : Module_) : bool :=
  if obj_truthy device then or_False (monitoring device) else false.

(** ** The entity, the shared store and the trace of outward calls *)

(** Exceptions raised by the remote calls of the client library. *)
Inductive Exn := PyException (msg : string).

Global Instance Exn_eq_dec : EqDecision Exn.
Proof. solve_decision. Defined.

(** Calls that leave the adapter, in the order they are made. *)
Inductive Event :=
  | CallSetPersonsHome (person_ids : list string)
  | CallSetPersonsAway
  | Notify (signal : string)
  | WriteHaState (available : bool) (state : option AlarmState).

(** The attributes of a [NetatmoAlarmEntity] instance.  [device] holds the
    flags of the entity's device as the store gives them; the remote side
    below acts on the home and does not reach this field. *)
Record NetatmoAlarmEntity := mkEntity {
  device : Module_;
  entity_description : NetatmoAlarmControlPanelEntityDescription;
  _attr_unique_id : string;
  _attr_translation_key : string;
  _signal_name : string;
  _publishers : list (list (string * string));
  _attr_available : bool;
  _attr_state : option AlarmState
}.

(** The store: the entity, the home object it borrows, and the trace. *)
Record Store := mkStore {
  entity : NetatmoAlarmEntity;
  home : Home;
  trace : list Event
}.

Definition set_entity (e : NetatmoAlarmEntity) (s : Store) : Store :=
  {| entity := e; home := home s; trace := trace s |}.

Definition set_home (h : Home) (s : Store) : Store :=
  {| entity := entity s; home := h; trace := trace s |}.

Definition record_event (ev : Event) (s : Store) : Store :=
  {| entity := entity s; home := home s; trace := trace s ++ [ev] |}.

Definition set_attr_available (b : bool) (e : NetatmoAlarmEntity) : NetatmoAlarmEntity :=
  {| device := device e; entity_description := entity_description e;
     _attr_unique_id := _attr_unique_id e;
     _attr_translation_key := _attr_translation_key e;
     _signal_name := _signal_name e; _publishers := _publishers e;
     _attr_available := b; _attr_state := _attr_state e |}.

Definition set_attr_state (st : option AlarmState) (e : NetatmoAlarmEntity) : NetatmoAlarmEntity :=
  {| device := device e; entity_description := entity_description e;
     _attr_unique_id := _attr_unique_id e;
     _attr_translation_key := _attr_translation_key e;
     _signal_name := _signal_name e; _publishers := _publishers e;
     _attr_available := _attr_available e; _attr_state := st |}.

Definition set_out_of_sight (v : option bool) (p : Person) : Person :=
  {| person_entity_id := person_entity_id p; pseudo := pseudo p;
     out_of_sight := v |}.

Definition set_persons (ps : gmap string Person) (h : Home) : Home :=
  {| home_entity_id := home_entity_id h; persons := ps; modules := modules h |}.

(** ** State and exception monad *)

Inductive Outcome (A : Type) :=
  | Raised (e : Exn)
  | Returned (a : A).
Arguments Raised {A} e.
Arguments Returned {A} a.

Definition M (A : Type) : Type := Store -> Outcome A * Store.

Definition ret {A} (a : A) : M A := fun s => (Returned a, s).

Definition bind {A B} (c : M A) (k : A -> M B) : M B :=
  fun s =>
    match c s with
    | (Returned a, s') => k a s'
    | (Raised e, s') => (Raised e, s')
    end.

Notation "'let*' x ':=' c 'in' k" := (bind c (fun x => k))
  (at level 10, x name, c at level 100, k at level 200).

Definition gets {A} (f : Store -> A) : M A := fun s => (Returned (f s), s).

Definition modify (f : Store -> Store) : M unit := fun s => (Returned tt, f s).

(** The remote side of the home object: the two awaited bulk calls of the
    client library.  Each may raise and may leave the home in any state
    (other tasks may also touch the home while the command is suspended);
    the entity's own attributes and the trace are out of its reach. *)
Class HomeApi := {
  async_set_persons_home : list string -> Home -> Outcome unit * Home;
  async_set_persons_away : Home -> Outcome unit * Home
}.

(** [__init__]: [base] is the instance as [super().__init__(device)] left
    it; [HOME] and [SIGNAL_NAME] are the constants of the data handler. *)
Definition init (HOME SIGNAL_NAME : string) (base : NetatmoAlarmEntity)
    (h : Home) (description : NetatmoAlarmControlPanelEntityDescription)
    : NetatmoAlarmEntity :=
  let signal := HOME ++ "-" ++ home_entity_id h in
  {| device := device base;
     entity_description := description;
     _attr_unique_id := module_entity_id (device base) ++ "-" ++ key description;
     _attr_translation_key := netatmo_name description;
     _signal_name := signal;
     _publishers := _publishers base ++
       [ [ ("name", HOME); ("home_id", home_entity_id h); (SIGNAL_NAME, signal) ] ];
     _attr_available := _attr_available base;
     _attr_state := _attr_state base |}.

Section Adapter.
Context {api : HomeApi}.

(** [await self.home.async_set_persons_home(person_ids)] *)
Definition await_set_persons_home (person_ids : list string) : M unit :=
  fun s =>
    let s1 := record_event (CallSetPersonsHome person_ids) s in
    let '(r, h') := async_set_persons_home person_ids (home s1) in
    (r, set_home h' s1).

(** [await self.home.async_set_persons_away()] *)
Definition await_set_persons_away : M unit :=
  fun s =>
    let s1 := record_event CallSetPersonsAway s in
    let '(r, h') := async_set_persons_away (home s1) in
    (r, set_home h' s1).

(** [for person in self.home.persons.values(): person.out_of_sight = v] *)
Definition force_out_of_sight (v : option bool) : M unit :=
  modify (fun s =>
    set_home (set_persons (set_out_of_sight v <$> persons (home s)) (home s)) s).

(** Modelled from the spec: the data handler behind
    [self.data_handler.notify(self._signal_name)] is not among the sources.
    The specification describes the notification as a fire-and-forget
    emission on the entity's signal, consumed elsewhere, with the refresh
    it causes running later; it is recorded in the trace and the refresh is
    a separate invocation ([Refresh] below). *)
Definition notify : M unit :=
  modify (fun s => record_event (Notify (_signal_name (entity s))) s).

(** [self.async_write_ha_state()] *)
Definition async_write_ha_state : M unit :=
  modify (fun s =>
    record_event
      (WriteHaState (_attr_available (entity s)) (_attr_state (entity s))) s).

Definition async_alarm_disarm (code : option string) : M unit :=
  let* person_ids := gets (fun s => keys (persons (home s))) in
  let* _ := await_set_persons_home person_ids in
  let* _ := force_out_of_sight (Some false) in
  notify.

Definition async_alarm_arm_away (code : option string) : M unit :=
  let* _ := await_set_persons_away in
  let* _ := force_out_of_sight (Some true) in
  notify.

Definition async_update_callback : M unit :=
  let* _ := modify (fun s =>
    set_entity
      (set_attr_available
         (is_camera_monitoring (device (entity s)) (home s)
          && is_siren_monitoring (device (entity s)))
         (entity s)) s) in
  let* empty := gets (fun s => is_house_empty (home s)) in
  let* _ :=
    if empty
    then modify (fun s =>
           set_entity (set_attr_state (Some STATE_ALARM_ARMED_AWAY) (entity s)) s)
    else modify (fun s =>
           set_entity (set_attr_state (Some STATE_ALARM_DISARMED) (entity s)) s) in
  async_write_ha_state.

(** The operations the host platform can invoke on the entity. *)
Inductive Op :=
  | Disarm (code : option string)
  | ArmAway (code : option string)
  | Refresh.

Definition step (op : Op) : M unit :=
  match op with
  | Disarm code => async_alarm_disarm code
  | ArmAway code => async_alarm_arm_away code
  | Refresh => async_update_callback
  end.

(** A sequence of invocations; a command that raises leaves the store as
    it was at the raise and the platform goes on with the next one. *)
Fixpoint run (ops : list Op) (s : Store) : Store :=
  match ops with
  | [] => s
  | op :: rest => run rest (snd (step op s))
  end.

End Adapter.

(** ** Concrete homes, devices and remote sides used to evaluate the model *)

Definition person_A : Person :=
  {| person_entity_id := "A"; pseudo := Some "Alice"; out_of_sight := Some false |}.
Definition person_B : Person :=
  {| person_entity_id := "B"; pseudo := None; out_of_sight := Some false |}.

Definition camera_1 : Module_ :=
  {| module_entity_id := "cam1"; bridge := None; monitoring := Some true |}.
Definition siren_1 : Module_ :=
  {| module_entity_id := "siren1"; bridge := Some "cam1"; monitoring := Some true |}.

Definition demo_home : Home :=
  {| home_entity_id := "h1";
     persons := <["A" := person_A]> (<["B" := person_B]> ∅);
     modules := <["cam1" := camera_1]> (<["siren1" := siren_1]> ∅) |}.

Definition empty_home : Home :=
  {| home_entity_id := "h0"; persons := ∅; modules := ∅ |}.

(** The instance as the base classes leave it (no state yet, available). *)
Definition demo_base : NetatmoAlarmEntity :=
  {| device := siren_1; entity_description := ALARM_TYPE;
     _attr_unique_id := ""; _attr_translation_key := "";
     _signal_name := ""; _publishers := [];
     _attr_available := true; _attr_state := None |}.

Definition demo_entity : NetatmoAlarmEntity :=
  init "home" "signal_name" demo_base demo_home ALARM_TYPE.

Definition demo_store : Store :=
  {| entity := demo_entity; home := demo_home; trace := [] |}.

(** A remote side whose calls return normally and leave the home alone. *)
Definition quiet_api : HomeApi :=
  {| async_set_persons_home := fun _ h => (Returned tt, h);
     async_set_persons_away := fun h => (Returned tt, h) |}.

(** A remote side whose calls always raise. *)
Definition failing_api : HomeApi :=
  {| async_set_persons_home := fun _ h => (Raised (PyException "timeout"), h);
     async_set_persons_away := fun h => (Raised (PyException "timeout"), h) |}.

(** The pair the platform shows: availability and state. *)
Definition displayed (s : Store) : bool * option AlarmState :=
  (_attr_available (entity s), _attr_state (entity s)).

(** The projection of the current flags of the home and the device. *)
Definition projection (s : Store) : bool * option AlarmState :=
  (is_camera_monitoring (device (entity s)) (home s)
     && is_siren_monitoring (device (entity s)),
   if is_house_empty (home s)
   then Some STATE_ALARM_ARMED_AWAY
   else Some STATE_ALARM_DISARMED).

(** Every person of the home has its out-of-sight flag equal to [v]. *)
Definition all_persons_flag (v : option bool) (h : Home) : Prop :=
  forall i p, persons h !! i = Some p -> out_of_sight p = v.

(** The two states the refresh can produce. *)
Definition two_valued (st : option AlarmState) : Prop :=
  st = Some STATE_ALARM_ARMED_AWAY \/ st = Some STATE_ALARM_DISARMED.

Definition write_two_valued (ev : Event) : Prop :=
  match ev with
  | WriteHaState _ st => two_valued st
  | _ => True
  end.

(** * Properties *)

(** ** Read-only properties *)

Lemma truthy_true (v : option bool) : truthy v = true <-> v = Some true.
Proof. destruct v as [[|]|]; simpl; split; congruence. Qed.

Lemma or_False_true (v : option bool) : or_False v = true <-> v = Some true.
Proof. destruct v as [[|]|]; simpl; split; congruence. Qed.

Lemma is_house_empty_iff (h : Home) :
  is_house_empty h = true <-> all_persons_flag (Some true) h.
Proof.
  unfold is_house_empty, all, all_persons_flag, values.
  rewrite forallb_forall. split.
  - intros Hall i p Hip. apply truthy_true, Hall.
    apply list_elem_of_In, list_elem_of_fmap. exists p. split; [done|].
    apply list_elem_of_fmap. exists (i, p). split; [done|].
    by apply elem_of_map_to_list.
  - intros Hall v Hv. apply list_elem_of_In, list_elem_of_fmap in Hv.
    destruct Hv as (p & -> & Hp).
    apply list_elem_of_fmap in Hp. destruct Hp as ([i p'] & -> & Hip).
    apply elem_of_map_to_list in Hip. simpl.
    apply truthy_true. by apply (Hall i).
Qed.

Lemma is_house_empty_no_persons (h : Home) :
  persons h = ∅ -> is_house_empty h = true.
Proof.
  intros He. apply is_house_empty_iff. intros i p.
  rewrite He, lookup_empty. discriminate.
Qed.

(** C5. [is_house_empty] is true exactly when every person of the home has
    its out-of-sight flag equal to [True]; with no persons at all it is
    true. *)
Theorem house_empty_iff_all_out_of_sight (h : Home) :
  (is_house_empty h = true <->
     forall i p, persons h !! i = Some p -> out_of_sight p = Some true)
  /\ (persons h = ∅ -> is_house_empty h = true).
Proof.
  split.
  - apply is_house_empty_iff.
  - apply is_house_empty_no_persons.
Qed.

Lemma house_empty_iff_all_out_of_sight_witness :
  is_house_empty empty_home = true /\ is_house_empty demo_home = false.
Proof.
  split.
  - apply (house_empty_iff_all_out_of_sight empty_home). reflexivity.
  - destruct (is_house_empty demo_home) eqn:E; [|reflexivity].
    apply (house_empty_iff_all_out_of_sight demo_home) with (i := "A") (p := person_A) in E;
      [discriminate E | reflexivity].
Defined.

(** C4. [is_camera_monitoring] is true exactly when the device's bridge id
    is set (a non-empty id: Python tests its truth value, so the empty
    string counts as unset like [None]), a module with that id is in the
    home's modules, and that module's monitoring flag is [True]; it is
    false when the bridge id is unset, when the lookup finds no module, and
    when the parent's flag is [False] or [None]. *)
Theorem camera_monitoring_spec (d : Module_) (h : Home) :
  (is_camera_monitoring d h = true <->
     exists parent_module_id parent_module,
       bridge d = Some parent_module_id /\ parent_module_id <> ""
       /\ modules h !! parent_module_id = Some parent_module
       /\ monitoring parent_module = Some true)
  /\ (bridge d = None \/ bridge d = Some "" -> is_camera_monitoring d h = false)
  /\ (forall parent_module_id,
        bridge d = Some parent_module_id ->
        modules h !! parent_module_id = None ->
        is_camera_monitoring d h = false)
  /\ (forall parent_module_id parent_module,
        bridge d = Some parent_module_id ->
        modules h !! parent_module_id = Some parent_module ->
        monitoring parent_module = Some false \/ monitoring parent_module = None ->
        is_camera_monitoring d h = false).
Proof.
  unfold is_camera_monitoring. repeat split.
  - destruct (bridge d) as [pid|]; [|discriminate].
    destruct pid as [|c pid]; simpl; [discriminate|].
    destruct (modules h !! String c pid) as [m|] eqn:Hm; [|discriminate].
    intros Hmon. apply or_False_true in Hmon.
    exists (String c pid), m. repeat split; try done.
  - intros (pid & m & -> & Hne & -> & Hmon).
    destruct pid; [done|]. simpl. by apply or_False_true.
  - intros [-> | ->]; reflexivity.
  - intros pid -> ->. by destruct (str_truthy pid).
  - intros pid m -> -> [-> | ->]; by destruct (str_truthy pid).
Qed.

Lemma camera_monitoring_spec_witness :
  is_camera_monitoring siren_1 demo_home = true
  /\ is_camera_monitoring camera_1 demo_home = false
  /\ is_camera_monitoring siren_1 empty_home = false.
Proof.
  split; [|split].
  - apply (camera_monitoring_spec siren_1 demo_home).
    exists "cam1", camera_1. repeat split; first [reflexivity | discriminate].
  - apply (camera_monitoring_spec camera_1 demo_home). left. reflexivity.
  - apply (proj1 (proj2 (proj2 (camera_monitoring_spec siren_1 empty_home))) "cam1");
      reflexivity.
Defined.

(** C10. [is_siren_monitoring] equals the device's own monitoring flag,
    with an unset flag ([None]) read as false: it is true only when the
    flag is [True]. *)
Theorem siren_monitoring_spec (d : Module_) :
  is_siren_monitoring d = default false (monitoring d)
  /\ (is_siren_monitoring d = true <-> monitoring d = Some true)
  /\ (monitoring d = None \/ monitoring d = Some false ->
      is_siren_monitoring d = false).
Proof.
  unfold is_siren_monitoring, obj_truthy.
  destruct (monitoring d) as [[|]|]; simpl; repeat split; try done;
    intros [?|?]; discriminate.
Qed.

Lemma siren_monitoring_spec_witness :
  is_siren_monitoring siren_1 = true
  /\ is_siren_monitoring
       {| module_entity_id := "s"; bridge := None; monitoring := None |} = false.
Proof.
  split.
  - apply (siren_monitoring_spec siren_1). reflexivity.
  - apply (siren_monitoring_spec
             {| module_entity_id := "s"; bridge := None; monitoring := None |}).
    left. reflexivity.
Defined.

(** ** Counting the calls recorded in a trace *)

Definition is_call_away (ev : Event) : bool :=
  match ev with CallSetPersonsAway => true | _ => false end.

Definition is_call_home (ev : Event) : bool :=
  match ev with CallSetPersonsHome _ => true | _ => false end.

Definition is_notify (ev : Event) : bool :=
  match ev with Notify _ => true | _ => false end.

Definition count_events (f : Event -> bool) (t : list Event) : nat :=
  length (List.filter f t).

Lemma count_events_app f t1 t2 :
  count_events f (t1 ++ t2) = count_events f t1 + count_events f t2.
Proof. unfold count_events. by rewrite List.filter_app, length_app. Qed.

(** ** The handlers, computed *)

Lemma keys_NoDup {A} (m : gmap string A) : NoDup (keys m).
Proof. apply NoDup_fst_map_to_list. Qed.

Lemma elem_of_keys {A} (m : gmap string A) (i : string) :
  i ∈ keys m <-> is_Some (m !! i).
Proof.
  unfold keys. rewrite list_elem_of_fmap. split.
  - intros ([j x] & -> & Hjx). apply elem_of_map_to_list in Hjx. by exists x.
  - intros [x Hx]. exists (i, x). split; [done|]. by apply elem_of_map_to_list.
Qed.

Lemma forced_flags (v : option bool) (h : Home) :
  all_persons_flag v (set_persons (set_out_of_sight v <$> persons h) h).
Proof.
  intros i p. simpl. rewrite lookup_fmap.
  destruct (persons h !! i) as [q|]; simpl; [|discriminate].
  intros [= <-]. reflexivity.
Qed.

Section Handlers.
Context {api : HomeApi}.

Lemma async_update_callback_eq (s : Store) :
  async_update_callback s =
    let available :=
      is_camera_monitoring (device (entity s)) (home s)
      && is_siren_monitoring (device (entity s)) in
    let state :=
      if is_house_empty (home s)
      then Some STATE_ALARM_ARMED_AWAY else Some STATE_ALARM_DISARMED in
    (Returned tt,
     {| entity := set_attr_state state (set_attr_available available (entity s));
        home := home s;
        trace := trace s ++ [WriteHaState available state] |}).
Proof.
  unfold async_update_callback, bind, gets, modify, async_write_ha_state.
  simpl. destruct (is_house_empty (home s)); reflexivity.
Qed.

Lemma async_alarm_arm_away_eq (code : option string) (s : Store) :
  async_alarm_arm_away code s =
    match async_set_persons_away (home s) with
    | (Returned _, h') =>
        (Returned tt,
         {| entity := entity s;
            home := set_persons (set_out_of_sight (Some true) <$> persons h') h';
            trace := trace s ++ [CallSetPersonsAway; Notify (_signal_name (entity s))] |})
    | (Raised e, h') =>
        (Raised e,
         {| entity := entity s; home := h';
            trace := trace s ++ [CallSetPersonsAway] |})
    end.
Proof.
  unfold async_alarm_arm_away, bind, await_set_persons_away,
    force_out_of_sight, notify, modify. simpl.
  destruct (async_set_persons_away (home s)) as [[e|[]] h']; simpl;
    [reflexivity|].
  unfold record_event, set_home. simpl. by rewrite <- app_assoc.
Qed.

Lemma async_alarm_disarm_eq (code : option string) (s : Store) :
  async_alarm_disarm code s =
    let person_ids := keys (persons (home s)) in
    match async_set_persons_home person_ids (home s) with
    | (Returned _, h') =>
        (Returned tt,
         {| entity := entity s;
            home := set_persons (set_out_of_sight (Some false) <$> persons h') h';
            trace := trace s ++
              [CallSetPersonsHome person_ids; Notify (_signal_name (entity s))] |})
    | (Raised e, h') =>
        (Raised e,
         {| entity := entity s; home := h';
            trace := trace s ++ [CallSetPersonsHome person_ids] |})
    end.
Proof.
  unfold async_alarm_disarm, bind, gets, await_set_persons_home,
    force_out_of_sight, notify, modify. simpl.
  destruct (async_set_persons_home (keys (persons (home s))) (home s))
    as [[e|[]] h']; simpl; [reflexivity|].
  unfold record_event, set_home. simpl. by rewrite <- app_assoc.
Qed.

End Handlers.

(** ** Refresh *)

(** C1. The update callback returns normally; it sets the availability to
    true exactly when both the camera and the siren are monitoring, sets
    the state to armed-away when every person is out of sight and to
    disarmed otherwise, and then writes that availability and state to the
    platform, leaving the home as it was. *)
Theorem refresh_sets_availability_and_state (s : Store) :
  exists s',
    async_update_callback s = (Returned tt, s')
    /\ (_attr_available (entity s') = true <->
          is_camera_monitoring (device (entity s)) (home s) = true
          /\ is_siren_monitoring (device (entity s)) = true)
    /\ ((forall i p, persons (home s) !! i = Some p -> out_of_sight p = Some true) ->
        _attr_state (entity s') = Some STATE_ALARM_ARMED_AWAY)
    /\ (~ (forall i p, persons (home s) !! i = Some p -> out_of_sight p = Some true) ->
        _attr_state (entity s') = Some STATE_ALARM_DISARMED)
    /\ trace s' =
         (trace s ++
            [WriteHaState (_attr_available (entity s')) (_attr_state (entity s'))])%list
    /\ home s' = home s.
Proof.
  eexists. split; [apply async_update_callback_eq|]. simpl.
  split; [apply andb_true_iff|].
  pose proof (is_house_empty_iff (home s)) as Hiff. unfold all_persons_flag in Hiff.
  destruct (is_house_empty (home s)); (split; [|split; [|split; reflexivity]]).
  - reflexivity.
  - intros Hn. exfalso. apply Hn. by apply Hiff.
  - intros Hall. apply Hiff in Hall. discriminate.
  - reflexivity.
Qed.

(** ** Commands *)

Section Commands.
Context {api : HomeApi}.

(** C2. When ArmAway returns normally, the persons of the home are exactly
    the persons the bulk call left, each with its out-of-sight flag set to
    [True] (none is added or dropped, so every one of them is present with
    flag [True]); the trace has grown by exactly one bulk away-call
    followed by one notification on the entity's signal name, and the
    entity's own attributes are untouched; this holds for every code
    argument. *)
Theorem arm_away_returns (code : option string) (s s' : Store) :
  async_alarm_arm_away code s = (Returned tt, s') ->
  (forall i p, persons (home s') !! i = Some p -> out_of_sight p = Some true)
  /\ trace s' =
       (trace s ++ [CallSetPersonsAway; Notify (_signal_name (entity s))])%list
  /\ count_events is_call_away (trace s') = count_events is_call_away (trace s) + 1
  /\ count_events is_notify (trace s') = count_events is_notify (trace s) + 1
  /\ entity s' = entity s
  /\ persons (home s')
     = set_out_of_sight (Some true) <$> persons (snd (async_set_persons_away (home s)))
  /\ dom (persons (home s')) = dom (persons (snd (async_set_persons_away (home s))))
  /\ (forall i, is_Some (persons (snd (async_set_persons_away (home s))) !! i) ->
      exists p, persons (home s') !! i = Some p /\ out_of_sight p = Some true).
Proof.
  rewrite async_alarm_arm_away_eq.
  destruct (async_set_persons_away (home s)) as [[e|[]] h']; [discriminate|].
  intros [= <-]. simpl.
  split; [apply (forced_flags (Some true) h')|].
  split; [reflexivity|].
  split; [by rewrite count_events_app|].
  split; [by rewrite count_events_app|].
  split; [reflexivity|].
  split; [reflexivity|].
  split; [apply dom_fmap_L|].
  intros i [p Hp]. exists (set_out_of_sight (Some true) p).
  by rewrite lookup_fmap, Hp.
Qed.

(** C3. When Disarm returns normally, the persons of the home are exactly
    the persons the bulk call left, each with its out-of-sight flag set to
    [False] (none is added or dropped, so every one of them is present
    with flag [False]); the trace has grown by exactly one bulk home-call
    followed by one notification on the entity's signal name, and the ids
    passed to the call are, without repetition, exactly the ids of the
    persons the home knew when the command started. *)
Theorem disarm_returns (code : option string) (s s' : Store) :
  async_alarm_disarm code s = (Returned tt, s') ->
  (forall i p, persons (home s') !! i = Some p -> out_of_sight p = Some false)
  /\ (exists person_ids,
        trace s' =
          (trace s ++
             [CallSetPersonsHome person_ids; Notify (_signal_name (entity s))])%list
        /\ NoDup person_ids
        /\ forall i, i ∈ person_ids <-> is_Some (persons (home s) !! i))
  /\ count_events is_call_home (trace s') = count_events is_call_home (trace s) + 1
  /\ count_events is_notify (trace s') = count_events is_notify (trace s) + 1
  /\ entity s' = entity s
  /\ persons (home s')
     = set_out_of_sight (Some false) <$>
         persons (snd (async_set_persons_home (keys (persons (home s))) (home s)))
  /\ dom (persons (home s'))
     = dom (persons (snd (async_set_persons_home (keys (persons (home s))) (home s))))
  /\ (forall i,
        is_Some (persons (snd (async_set_persons_home (keys (persons (home s))) (home s)))
                 !! i) ->
        exists p, persons (home s') !! i = Some p /\ out_of_sight p = Some false).
Proof.
  rewrite async_alarm_disarm_eq. simpl.
  destruct (async_set_persons_home (keys (persons (home s))) (home s))
    as [[e|[]] h']; [discriminate|].
  intros [= <-]. simpl.
  split; [apply (forced_flags (Some false) h')|].
  split.
  { exists (keys (persons (home s))). split; [reflexivity|].
    split; [apply keys_NoDup|]. intros i. apply elem_of_keys. }
  split; [by rewrite count_events_app|].
  split; [by rewrite count_events_app|].
  split; [reflexivity|].
  split; [reflexivity|].
  split; [apply dom_fmap_L|].
  intros i [p Hp]. exists (set_out_of_sight (Some false) p).
  by rewrite lookup_fmap, Hp.
Qed.

(** C8. When the bulk call awaited by ArmAway or by Disarm raises, the
    command raises that same exception; the home is the one the remote
    call left behind (the command has set no out-of-sight flag), the
    trace has grown by the call alone (no notification), and the entity's
    attributes are untouched. *)
Theorem remote_failure_propagates (code : option string) (s : Store) :
  (forall e h',
     async_set_persons_away (home s) = (Raised e, h') ->
     async_alarm_arm_away code s =
       (Raised e,
        {| entity := entity s; home := h';
           trace := trace s ++ [CallSetPersonsAway] |}))
  /\ (forall e h',
        async_set_persons_home (keys (persons (home s))) (home s) = (Raised e, h') ->
        async_alarm_disarm code s =
          (Raised e,
           {| entity := entity s; home := h';
              trace := trace s ++ [CallSetPersonsHome (keys (persons (home s)))] |})).
Proof.
  split; intros e h' Hcall.
  - rewrite async_alarm_arm_away_eq. by rewrite Hcall.
  - rewrite async_alarm_disarm_eq. simpl. by rewrite Hcall.
Qed.

(** C9. The code argument has no influence: for any two codes ([None]
    included) ArmAway gives the same outcome, store and trace, and so
    does Disarm. *)
Theorem code_is_ignored (code1 code2 : option string) (s : Store) :
  async_alarm_arm_away code1 s = async_alarm_arm_away code2 s
  /\ async_alarm_disarm code1 s = async_alarm_disarm code2 s.
Proof. split; reflexivity. Qed.

End Commands.

(** The stores the two commands reach from [demo_store] when the remote
    side answers normally. *)
Definition demo_armed : Store := snd (async_alarm_arm_away (api := quiet_api) None demo_store).
Definition demo_disarmed : Store := snd (async_alarm_disarm (api := quiet_api) None demo_armed).

Lemma arm_away_returns_witness :
  async_alarm_arm_away (api := quiet_api) (Some "1234") demo_store
    = (Returned tt, demo_armed)
  /\ (forall i p, persons (home demo_armed) !! i = Some p -> out_of_sight p = Some true)
  /\ trace demo_armed = [CallSetPersonsAway; Notify "home-h1"]
  /\ persons (home demo_armed) = set_out_of_sight (Some true) <$> persons demo_home
  /\ persons (home demo_armed) !! "A" = Some (set_out_of_sight (Some true) person_A)
  /\ persons (home demo_armed) !! "B" = Some (set_out_of_sight (Some true) person_B).
Proof.
  pose proof (arm_away_returns (api := quiet_api) (Some "1234") demo_store demo_armed
                eq_refl) as (Hflags & Htrace & _ & _ & _ & Hpersons & _).
  split; [reflexivity|]. split; [exact Hflags|]. split; [exact Htrace|].
  split; [exact Hpersons|]. rewrite Hpersons. split; reflexivity.
Defined.

Lemma disarm_returns_witness :
  async_alarm_disarm (api := quiet_api) None demo_armed = (Returned tt, demo_disarmed)
  /\ (forall i p, persons (home demo_disarmed) !! i = Some p -> out_of_sight p = Some false)
  /\ count_events is_call_home (trace demo_disarmed) = 1
  /\ persons (home demo_disarmed)
     = set_out_of_sight (Some false) <$> persons (home demo_armed)
  /\ persons (home demo_disarmed) !! "A" = Some person_A
  /\ persons (home demo_disarmed) !! "B" = Some person_B.
Proof.
  pose proof (disarm_returns (api := quiet_api) None demo_armed demo_disarmed
                eq_refl) as (Hflags & _ & Hcount & _ & _ & Hpersons & _).
  split; [reflexivity|]. split; [exact Hflags|]. split; [exact Hcount|].
  split; [exact Hpersons|]. rewrite Hpersons. split; reflexivity.
Defined.

Lemma remote_failure_propagates_witness :
  async_alarm_arm_away (api := failing_api) None demo_store
    = (Raised (PyException "timeout"),
       {| entity := demo_entity; home := demo_home; trace := [CallSetPersonsAway] |})
  /\ async_alarm_disarm (api := failing_api) (Some "0000") demo_store
     = (Raised (PyException "timeout"),
        {| entity := demo_entity; home := demo_home;
           trace := [CallSetPersonsHome (keys (persons demo_home))] |}).
Proof.
  split.
  - apply (proj1 (remote_failure_propagates (api := failing_api) None demo_store)
             (PyException "timeout") demo_home).
    reflexivity.
  - apply (proj2 (remote_failure_propagates (api := failing_api) (Some "0000") demo_store)
             (PyException "timeout") demo_home).
    reflexivity.
Defined.

(** The scenario of the specification: two persons at home, camera and
    siren monitoring.  A refresh shows disarmed and available; after
    ArmAway both persons are out of sight and the next refresh shows
    armed-away. *)
Example scenario_refresh_arm_refresh :
  displayed (run (api := quiet_api) [Refresh] demo_store)
    = (true, Some STATE_ALARM_DISARMED)
  /\ out_of_sight <$> values (persons (home (run (api := quiet_api) [Refresh; ArmAway None] demo_store)))
     = [Some true; Some true]
  /\ displayed (run (api := quiet_api) [Refresh; ArmAway None; Refresh] demo_store)
     = (true, Some STATE_ALARM_ARMED_AWAY).
Proof. repeat split; reflexivity. Qed.

(** ** The stored state between a command and the next refresh *)

(** The store right after a refresh of [demo_store], and the store ArmAway
    reaches from it before any further refresh. *)
Definition demo_refreshed : Store := run (api := quiet_api) [Refresh] demo_store.
Definition demo_armed_unrefreshed : Store :=
  run (api := quiet_api) [ArmAway None] demo_refreshed.

(** C6, as stated, fails: right after a refresh the displayed pair agrees
    with the projection of the flags, but ArmAway then sets the flags and
    leaves the stored state at disarmed while the projection of the
    current flags is armed-away. *)
Lemma stale_state_after_arm_away :
  displayed demo_refreshed = projection demo_refreshed
  /\ displayed demo_armed_unrefreshed = (true, Some STATE_ALARM_DISARMED)
  /\ projection demo_armed_unrefreshed = (true, Some STATE_ALARM_ARMED_AWAY)
  /\ displayed demo_armed_unrefreshed <> projection demo_armed_unrefreshed.
Proof. repeat split; try reflexivity. discriminate. Qed.

Section Sequences.
Context {api : HomeApi}.

(** C6, amended. The displayed availability and state are stored
    attributes: right after every refresh they equal the projection of
    the current flags of the home and the device, and ArmAway and Disarm
    leave them exactly as they were, whether the remote call returns or
    raises. *)
Theorem displayed_state_is_recomputed_by_refresh_only :
  (forall s, displayed (snd (async_update_callback s))
             = projection (snd (async_update_callback s)))
  /\ (forall code s, displayed (snd (async_alarm_arm_away code s)) = displayed s)
  /\ (forall code s, displayed (snd (async_alarm_disarm code s)) = displayed s).
Proof.
  split; [|split].
  - intros s. rewrite async_update_callback_eq. reflexivity.
  - intros code s. rewrite async_alarm_arm_away_eq.
    by destruct (async_set_persons_away (home s)) as [[e|[]] h'].
  - intros code s. rewrite async_alarm_disarm_eq. simpl.
    by destruct (async_set_persons_home (keys (persons (home s))) (home s))
      as [[e|[]] h'].
Qed.

Lemma step_writes_two_valued (op : Op) (s : Store) :
  exists evs,
    trace (snd (step op s)) = (trace s ++ evs)%list
    /\ Forall write_two_valued evs
    /\ (_attr_state (entity (snd (step op s))) = _attr_state (entity s)
        \/ two_valued (_attr_state (entity (snd (step op s))))).
Proof.
  destruct op as [code|code|]; simpl.
  - rewrite async_alarm_disarm_eq. simpl.
    destruct (async_set_persons_home (keys (persons (home s))) (home s))
      as [[e|[]] h']; simpl; eexists; (split; [reflexivity|]);
      (split; [repeat constructor | by left]).
  - rewrite async_alarm_arm_away_eq.
    destruct (async_set_persons_away (home s)) as [[e|[]] h']; simpl;
      eexists; (split; [reflexivity|]);
      (split; [repeat constructor | by left]).
  - rewrite async_update_callback_eq. simpl.
    eexists. split; [reflexivity|].
    destruct (is_house_empty (home s)); simpl.
    + split; [apply Forall_singleton; by left | right; by left].
    + split; [apply Forall_singleton; by right | right; by right].
Qed.

(** C7. Over every sequence of Disarm, ArmAway and refresh invocations
    from any store, every state written to the platform is armed-away or
    disarmed, and the stored state is either the one the sequence started
    with or one of these two; the unknown and armed-home labels of the
    description's four-entry list are not among the two. *)
Theorem only_armed_away_or_disarmed_written (ops : list Op) (s : Store) :
  (exists evs,
     trace (run ops s) = (trace s ++ evs)%list
     /\ Forall write_two_valued evs)
  /\ (_attr_state (entity (run ops s)) = _attr_state (entity s)
      \/ two_valued (_attr_state (entity (run ops s))))
  /\ netatmo_alarm_states ALARM_TYPE =
       [None; Some STATE_ALARM_DISARMED; Some STATE_ALARM_ARMED_AWAY;
        Some STATE_ALARM_ARMED_HOME]
  /\ ~ two_valued None
  /\ ~ two_valued (Some STATE_ALARM_ARMED_HOME).
Proof.
  split; [|split; [|split; [reflexivity|]]].
  - revert s. induction ops as [|op rest IH]; intros s; simpl.
    + exists []. split; [by rewrite app_nil_r | constructor].
    + destruct (step_writes_two_valued op s) as (evs1 & Ht1 & Hf1 & _).
      destruct (IH (snd (step op s))) as (evs2 & Ht2 & Hf2).
      exists (evs1 ++ evs2)%list. split.
      * by rewrite Ht2, Ht1, <- app_assoc.
      * by apply Forall_app.
  - revert s. induction ops as [|op rest IH]; intros s; simpl.
    + by left.
    + destruct (step_writes_two_valued op s) as (_ & _ & _ & Hst).
      destruct (IH (snd (step op s))) as [Heq | Htwo].
      * rewrite Heq. exact Hst.
      * by right.
  - unfold two_valued. split; intros [?|?]; discriminate.
Qed.

End Sequences.

(** * Further properties of the adapter *)

(** ** Entity creation *)

(** Lookup in a dict literal given as its key/value pairs in source order:
    when a key is written twice the later pair wins. *)
Fixpoint dict_get (k : string) (d : list (string * string)) : option string :=
  match d with
  | [] => None
  | (k', v) :: rest =>
      match dict_get k rest with
      | Some x => Some x
      | None => if decide (k = k') then Some v else None
      end
  end.

Lemma string_length_app (a b : string) :
  String.length (a ++ b) = String.length a + String.length b.
Proof.
  induction a as [|c a IH]; [reflexivity|].
  change (String c a ++ b) with (String c (a ++ b)).
  change (S (String.length (a ++ b)) = S (String.length a + String.length b)).
  by rewrite IH.
Qed.

Lemma string_app_inv_tail (a b s : string) : a ++ s = b ++ s -> a = b.
Proof.
  revert b. induction a as [|c a IH]; intros [|c' b] H.
  - reflexivity.
  - apply (f_equal String.length) in H.
    change ("" ++ s) with s in H. rewrite string_length_app in H. cbn in H. lia.
  - apply (f_equal String.length) in H.
    change ("" ++ s) with s in H. rewrite string_length_app in H. cbn in H. lia.
  - change (String c (a ++ s) = String c' (b ++ s)) in H.
    injection H as -> H. f_equal. by apply IH.
Qed.

(** X1. Two entities created with the same description have the same
    unique id exactly when their devices have the same id: distinct devices
    never collide. *)
Theorem unique_id_separates_devices (HOME SIGNAL_NAME : string)
    (base1 base2 : NetatmoAlarmEntity) (h1 h2 : Home)
    (description : NetatmoAlarmControlPanelEntityDescription) :
  _attr_unique_id (init HOME SIGNAL_NAME base1 h1 description)
    = _attr_unique_id (init HOME SIGNAL_NAME base2 h2 description)
  <-> module_entity_id (device base1) = module_entity_id (device base2).
Proof.
  simpl. split.
  - apply string_app_inv_tail.
  - by intros ->.
Qed.

(** X2. The signal names of two entities are equal exactly when their
    homes have the same id: a notification is scoped to one home. *)
Theorem signal_name_separates_homes (HOME SIGNAL_NAME : string)
    (base1 base2 : NetatmoAlarmEntity) (h1 h2 : Home)
    (d1 d2 : NetatmoAlarmControlPanelEntityDescription) :
  _signal_name (init HOME SIGNAL_NAME base1 h1 d1)
    = _signal_name (init HOME SIGNAL_NAME base2 h2 d2)
  <-> home_entity_id h1 = home_entity_id h2.
Proof.
  simpl. split.
  - intros H. apply (String.app_inj HOME) in H. by injection H.
  - by intros ->.
Qed.

(** X3. Creating the entity keeps the publishers the base classes
    registered and appends exactly one, whose signal entry is the entity's
    own signal name, whatever the values of the two constants. *)
Theorem init_registers_own_signal (HOME SIGNAL_NAME : string)
    (base : NetatmoAlarmEntity) (h : Home)
    (description : NetatmoAlarmControlPanelEntityDescription) :
  let e := init HOME SIGNAL_NAME base h description in
  exists publisher,
    _publishers e = (_publishers base ++ [publisher])%list
    /\ dict_get SIGNAL_NAME publisher = Some (_signal_name e)
    /\ _signal_name e = HOME ++ "-" ++ home_entity_id h.
Proof.
  simpl. eexists. split; [reflexivity|]. split; [|reflexivity].
  simpl. by rewrite decide_True.
Qed.

(** ** What the commands leave alone *)

(** Two homes that differ at most in the out-of-sight flags of their
    persons: same id, same modules, same person ids, and each person keeps
    its id and pseudo. *)
Definition only_flags_differ (h1 h2 : Home) : Prop :=
  home_entity_id h2 = home_entity_id h1
  /\ modules h2 = modules h1
  /\ dom (persons h2) = dom (persons h1)
  /\ forall i p1, persons h1 !! i = Some p1 ->
       exists p2, persons h2 !! i = Some p2
                  /\ person_entity_id p2 = person_entity_id p1
                  /\ pseudo p2 = pseudo p1.

Lemma forced_flags_only (v : option bool) (h : Home) :
  only_flags_differ h (set_persons (set_out_of_sight v <$> persons h) h).
Proof.
  repeat split; simpl.
  - apply dom_fmap_L.
  - intros i p1 Hp1. exists (set_out_of_sight v p1).
    rewrite lookup_fmap, Hp1. by repeat split.
Qed.

Section Frame.
Context {api : HomeApi}.

(** X4. A command that returns changes nothing of the home the remote
    call left behind except the out-of-sight flags: no person is added or
    removed, ids and pseudos are kept, and the modules and the home id are
    untouched. *)
Theorem commands_change_only_flags (code : option string) (s s' : Store) :
  (async_alarm_arm_away code s = (Returned tt, s') ->
   only_flags_differ (snd (async_set_persons_away (home s))) (home s'))
  /\ (async_alarm_disarm code s = (Returned tt, s') ->
      only_flags_differ
        (snd (async_set_persons_home (keys (persons (home s))) (home s))) (home s')).
Proof.
  split.
  - rewrite async_alarm_arm_away_eq.
    destruct (async_set_persons_away (home s)) as [[e|[]] h']; [discriminate|].
    intros [= <-]. apply forced_flags_only.
  - rewrite async_alarm_disarm_eq. simpl.
    destruct (async_set_persons_home (keys (persons (home s))) (home s))
      as [[e|[]] h']; [discriminate|].
    intros [= <-]. apply forced_flags_only.
Qed.

(** X5. A refresh right after an ArmAway that returned always shows
    armed-away, whatever the home held before and however many persons it
    has. *)
Theorem arm_away_then_refresh_shows_armed_away (code : option string) (s s' : Store) :
  async_alarm_arm_away code s = (Returned tt, s') ->
  _attr_state (entity (snd (async_update_callback s'))) = Some STATE_ALARM_ARMED_AWAY.
Proof.
  rewrite async_alarm_arm_away_eq.
  destruct (async_set_persons_away (home s)) as [[e|[]] h']; [discriminate|].
  intros [= <-]. rewrite async_update_callback_eq. simpl.
  by rewrite (proj2 (is_house_empty_iff _) (forced_flags (Some true) h')).
Qed.

(** X6. A refresh right after a Disarm that returned shows disarmed when
    the home has at least one person; with no person at all it shows
    armed-away, because the test over an empty set of persons succeeds. *)
Theorem disarm_then_refresh (code : option string) (s s' : Store) :
  async_alarm_disarm code s = (Returned tt, s') ->
  _attr_state (entity (snd (async_update_callback s')))
    = if decide (persons (home s') = ∅)
      then Some STATE_ALARM_ARMED_AWAY
      else Some STATE_ALARM_DISARMED.
Proof.
  rewrite async_alarm_disarm_eq. simpl.
  destruct (async_set_persons_home (keys (persons (home s))) (home s))
    as [[e|[]] h']; [discriminate|].
  intros [= <-]. rewrite async_update_callback_eq. simpl.
  set (h2 := set_persons (set_out_of_sight (Some false) <$> persons h') h').
  change (set_out_of_sight (Some false) <$> persons h') with (persons h2).
  destruct (decide (persons h2 = ∅)) as [Hemp|Hne].
  - by rewrite (is_house_empty_no_persons h2 Hemp).
  - destruct (is_house_empty h2) eqn:E; [|reflexivity].
    apply is_house_empty_iff in E.
    destruct (map_choose _ Hne) as (i & p & Hip).
    pose proof (forced_flags (Some false) h' i p Hip) as Hf.
    rewrite (E i p Hip) in Hf. discriminate.
Qed.

End Frame.

(** X7. Refreshing twice in a row is the same as refreshing once: the
    second refresh leaves the entity and the home as the first left them
    and writes the same availability and state again. *)
Theorem refresh_is_idempotent (s : Store) :
  let s1 := snd (async_update_callback s) in
  let s2 := snd (async_update_callback s1) in
  entity s2 = entity s1
  /\ home s2 = home s1
  /\ trace s2 =
       (trace s1 ++ [WriteHaState (_attr_available (entity s1)) (_attr_state (entity s1))])%list
  /\ last (trace s1)
     = Some (WriteHaState (_attr_available (entity s1)) (_attr_state (entity s1))).
Proof.
  simpl. rewrite !async_update_callback_eq. simpl.
  repeat split. apply last_snoc.
Qed.

(** ** Sequences of invocations *)

Definition is_write (ev : Event) : bool :=
  match ev with WriteHaState _ _ => true | _ => false end.

Definition is_refresh (op : Op) : bool :=
  match op with Refresh => true | _ => false end.

Definition is_disarm (op : Op) : bool :=
  match op with Disarm _ => true | _ => false end.

Definition is_arm_away (op : Op) : bool :=
  match op with ArmAway _ => true | _ => false end.

Definition count_ops (f : Op -> bool) (ops : list Op) : nat :=
  length (List.filter f ops).

Section Counting.
Context {api : HomeApi}.

Lemma run_app (ops1 ops2 : list Op) (s : Store) :
  run (ops1 ++ ops2) s = run ops2 (run ops1 s).
Proof. revert s. induction ops1 as [|op ops1 IH]; intros s; simpl; [done|apply IH]. Qed.

Lemma step_counts (op : Op) (s : Store) :
  let s' := snd (step op s) in
  count_events is_write (trace s')
    = count_events is_write (trace s) + (if is_refresh op then 1 else 0)
  /\ count_events is_call_home (trace s')
     = count_events is_call_home (trace s) + (if is_disarm op then 1 else 0)
  /\ count_events is_call_away (trace s')
     = count_events is_call_away (trace s) + (if is_arm_away op then 1 else 0)
  /\ count_events is_notify (trace s) <= count_events is_notify (trace s')
  /\ count_events is_notify (trace s')
     <= count_events is_notify (trace s) + (if is_refresh op then 0 else 1).
Proof.
  destruct op as [code|code|]; simpl.
  - rewrite async_alarm_disarm_eq. simpl.
    destruct (async_set_persons_home (keys (persons (home s))) (home s))
      as [[e|[]] h']; simpl; rewrite !count_events_app; cbn; lia.
  - rewrite async_alarm_arm_away_eq.
    destruct (async_set_persons_away (home s)) as [[e|[]] h']; simpl;
      rewrite !count_events_app; cbn; lia.
  - rewrite async_update_callback_eq. simpl.
    rewrite !count_events_app; cbn; lia.
Qed.

(** X8. Over any sequence of invocations, the state is written to the
    platform once per refresh and never by a command; the bulk home-call is
    made once per Disarm and the bulk away-call once per ArmAway, whether
    or not the call raises; and at most one notification is emitted per
    command, none by a refresh. *)
Theorem calls_match_invocations (ops : list Op) (s : Store) :
  count_events is_write (trace (run ops s))
    = count_events is_write (trace s) + count_ops is_refresh ops
  /\ count_events is_call_home (trace (run ops s))
     = count_events is_call_home (trace s) + count_ops is_disarm ops
  /\ count_events is_call_away (trace (run ops s))
     = count_events is_call_away (trace s) + count_ops is_arm_away ops
  /\ count_events is_notify (trace (run ops s))
     <= count_events is_notify (trace s)
        + count_ops is_disarm ops + count_ops is_arm_away ops.
Proof.
  revert s. induction ops as [|op rest IH]; intros s.
  - unfold count_ops. simpl. lia.
  - simpl run. destruct (IH (snd (step op s))) as (Hw & Hh & Ha & Hn).
    destruct (step_counts op s) as (Hw1 & Hh1 & Ha1 & _ & Hn1).
    unfold count_ops in *. simpl List.filter.
    destruct op as [code|code|]; simpl in *; lia.
Qed.

(** X9. Whatever was invoked before, right after a refresh the displayed
    availability and state equal the projection of the current flags; and
    a sequence with no refresh in it, however long and whether or not its
    commands raise, leaves the displayed pair as it was. *)
Theorem displayed_follows_last_refresh (ops : list Op) (s : Store) :
  displayed (run (ops ++ [Refresh]) s) = projection (run (ops ++ [Refresh]) s)
  /\ (count_ops is_refresh ops = 0 -> displayed (run ops s) = displayed s).
Proof.
  split.
  - rewrite run_app. simpl. by rewrite async_update_callback_eq.
  - revert s. induction ops as [|op rest IH]; intros s Hc; [reflexivity|].
    unfold count_ops in *. simpl in Hc.
    destruct op as [code|code|]; simpl in Hc; try discriminate; simpl run;
      rewrite (IH _ Hc).
    + rewrite async_alarm_disarm_eq. simpl.
      by destruct (async_set_persons_home (keys (persons (home s))) (home s))
        as [[e|[]] h'].
    + rewrite async_alarm_arm_away_eq.
      by destruct (async_set_persons_away (home s)) as [[e|[]] h'].
Qed.

End Counting.

(** ** The read-only properties under changes of the home *)

Definition set_modules (ms : gmap string Module_) (h : Home) : Home :=
  {| home_entity_id := home_entity_id h; persons := persons h; modules := ms |}.

(** X10. Adding or replacing a person: the house is empty exactly when
    the new person is out of sight and the house without that person is
    empty.  One person in sight is enough to make the house non-empty. *)
Theorem house_empty_insert_person (h : Home) (i : string) (p : Person) :
  is_house_empty (set_persons (<[i := p]> (persons h)) h)
    = truthy (out_of_sight p)
      && is_house_empty (set_persons (delete i (persons h)) h).
Proof.
  apply Bool.eq_iff_eq_true.
  rewrite andb_true_iff, !is_house_empty_iff, truthy_true.
  unfold all_persons_flag; simpl. split.
  - intros Hall. split.
    + apply (Hall i). apply lookup_insert_eq.
    + intros j q Hj. apply lookup_delete_Some in Hj as [Hne Hj].
      apply (Hall j). by rewrite lookup_insert_ne.
  - intros [Hp Hall] j q Hj.
    destruct (decide (i = j)) as [->|Hne].
    + rewrite lookup_insert_eq in Hj. by injection Hj as <-.
    + rewrite lookup_insert_ne in Hj by done.
      apply (Hall j). by apply lookup_delete_Some.
Qed.

(** X11. For a device with a bridge id, camera monitoring follows the
    module stored under that id and nothing else: putting a module there
    gives that module's flag, removing it gives false, and adding or
    replacing a module under any other id changes nothing. *)
Theorem camera_monitoring_follows_parent (d : Module_) (h : Home)
    (parent_module_id : string) (m : Module_) :
  bridge d = Some parent_module_id ->
  parent_module_id <> "" ->
  is_camera_monitoring d (set_modules (<[parent_module_id := m]> (modules h)) h)
    = or_False (monitoring m)
  /\ is_camera_monitoring d (set_modules (delete parent_module_id (modules h)) h)
     = false
  /\ forall j m', j <> parent_module_id ->
       is_camera_monitoring d (set_modules (<[j := m']> (modules h)) h)
         = is_camera_monitoring d h.
Proof.
  intros Hb Hne. unfold is_camera_monitoring. rewrite Hb.
  destruct parent_module_id as [|c pid]; [done|]. simpl.
  split; [|split].
  - by rewrite lookup_insert_eq.
  - by rewrite lookup_delete_eq.
  - intros j m' Hj. by rewrite lookup_insert_ne.
Qed.

Lemma camera_monitoring_follows_parent_witness :
  is_camera_monitoring siren_1
    (set_modules (<["cam1" := {| module_entity_id := "cam1"; bridge := None;
                                monitoring := Some false |}]> (modules demo_home))
       demo_home) = false
  /\ is_camera_monitoring siren_1
       (set_modules (delete "cam1" (modules demo_home)) demo_home) = false.
Proof.
  pose proof (camera_monitoring_follows_parent siren_1 demo_home "cam1"
                {| module_entity_id := "cam1"; bridge := None; monitoring := Some false |}
                eq_refl ltac:(discriminate)) as (H1 & H2 & _).
  split; [exact H1 | exact H2].
Defined.

Section Availability.
Context {api : HomeApi}.

(** X12. Arming or disarming never changes the availability: when the
    remote call returns and leaves the modules as they were, the refresh
    after the command computes the same availability as a refresh before
    it would have. *)
Theorem commands_keep_availability (code : option string) (s s' : Store) :
  (async_alarm_arm_away code s = (Returned tt, s') ->
   modules (snd (async_set_persons_away (home s))) = modules (home s) ->
   _attr_available (entity (snd (async_update_callback s')))
     = _attr_available (entity (snd (async_update_callback s))))
  /\ (async_alarm_disarm code s = (Returned tt, s') ->
      modules (snd (async_set_persons_home (keys (persons (home s))) (home s)))
        = modules (home s) ->
      _attr_available (entity (snd (async_update_callback s')))
        = _attr_available (entity (snd (async_update_callback s)))).
Proof.
  split.
  - rewrite async_alarm_arm_away_eq.
    destruct (async_set_persons_away (home s)) as [[e|[]] h']; [discriminate|].
    intros [= <-] Hm. rewrite !async_update_callback_eq. simpl in *.
    unfold is_camera_monitoring. simpl. by rewrite Hm.
  - rewrite async_alarm_disarm_eq. simpl.
    destruct (async_set_persons_home (keys (persons (home s))) (home s))
      as [[e|[]] h']; [discriminate|].
    intros [= <-] Hm. rewrite !async_update_callback_eq. simpl in *.
    unfold is_camera_monitoring. simpl. by rewrite Hm.
Qed.

End Availability.

(** ** Evaluations of the further properties *)

Lemma commands_change_only_flags_witness :
  only_flags_differ demo_home (home demo_armed)
  /\ only_flags_differ demo_armed.(home) (home demo_disarmed).
Proof.
  split.
  - apply (proj1 (commands_change_only_flags (api := quiet_api) None demo_store demo_armed)).
    reflexivity.
  - apply (proj2 (commands_change_only_flags (api := quiet_api) None demo_armed demo_disarmed)).
    reflexivity.
Defined.

Lemma arm_away_then_refresh_shows_armed_away_witness :
  _attr_state (entity (snd (async_update_callback demo_armed)))
    = Some STATE_ALARM_ARMED_AWAY.
Proof.
  apply (arm_away_then_refresh_shows_armed_away (api := quiet_api) None demo_store).
  reflexivity.
Defined.

(** Disarm on a home without persons, then refresh: armed-away. *)
Definition empty_store : Store :=
  {| entity := init "home" "signal_name" demo_base empty_home ALARM_TYPE;
     home := empty_home; trace := [] |}.
Definition empty_disarmed : Store :=
  snd (async_alarm_disarm (api := quiet_api) None empty_store).

Lemma disarm_then_refresh_witness :
  _attr_state (entity (snd (async_update_callback demo_disarmed)))
    = Some STATE_ALARM_DISARMED
  /\ _attr_state (entity (snd (async_update_callback empty_disarmed)))
     = Some STATE_ALARM_ARMED_AWAY.
Proof.
  split.
  - rewrite (disarm_then_refresh (api := quiet_api) None demo_armed demo_disarmed eq_refl).
    reflexivity.
  - rewrite (disarm_then_refresh (api := quiet_api) None empty_store empty_disarmed eq_refl).
    reflexivity.
Defined.

Lemma displayed_follows_last_refresh_witness :
  displayed (run (api := failing_api) [ArmAway None; Disarm (Some "1")] demo_refreshed)
    = displayed demo_refreshed.
Proof.
  apply (displayed_follows_last_refresh (api := failing_api)
           [ArmAway None; Disarm (Some "1")] demo_refreshed).
  reflexivity.
Defined.

Lemma commands_keep_availability_witness :
  _attr_available (entity (snd (async_update_callback demo_armed)))
    = _attr_available (entity (snd (async_update_callback demo_store)))
  /\ _attr_available (entity (snd (async_update_callback demo_disarmed)))
     = _attr_available (entity (snd (async_update_callback demo_armed))).
Proof.
  split.
  - apply (proj1 (commands_keep_availability (api := quiet_api) None demo_store demo_armed));
      reflexivity.
  - apply (proj2 (commands_keep_availability (api := quiet_api) None demo_armed demo_disarmed));
      reflexivity.
Defined.

Section Registered.
Context {api : HomeApi}.

(** X13. For an entity as its constructor builds it, the notification a
    returning command emits goes out on the very signal stored in the
    publisher the constructor appended, so it reaches the subscription the
    entity registered for its home. *)
Theorem notification_on_registered_signal (HOME SIGNAL_NAME : string)
    (base : NetatmoAlarmEntity) (h : Home)
    (description : NetatmoAlarmControlPanelEntityDescription)
    (op : Op) (s s' : Store) :
  entity s = init HOME SIGNAL_NAME base h description ->
  is_refresh op = false ->
  step op s = (Returned tt, s') ->
  exists publisher,
    last (_publishers (entity s')) = Some publisher
    /\ dict_get SIGNAL_NAME publisher = Some (HOME ++ "-" ++ home_entity_id h)
    /\ last (trace s') = Some (Notify (HOME ++ "-" ++ home_entity_id h)).
Proof.
  intros He Hop Hstep.
  assert (entity s' = entity s
          /\ last (trace s') = Some (Notify (_signal_name (entity s)))) as [He' Hlast].
  { destruct op as [code|code|]; simpl in Hstep; [| |discriminate].
    - rewrite async_alarm_disarm_eq in Hstep. simpl in Hstep.
      destruct (async_set_persons_home (keys (persons (home s))) (home s))
        as [[e|[]] h']; [discriminate|].
      injection Hstep as <-. simpl. split; [reflexivity|].
      by rewrite last_app.
    - rewrite async_alarm_arm_away_eq in Hstep.
      destruct (async_set_persons_away (home s)) as [[e|[]] h']; [discriminate|].
      injection Hstep as <-. simpl. split; [reflexivity|].
      by rewrite last_app. }
  rewrite He', Hlast, He. simpl.
  eexists. split; [apply last_snoc|]. split; [|reflexivity].
  simpl. by rewrite decide_True.
Qed.

End Registered.

Lemma notification_on_registered_signal_witness :
  last (trace demo_armed) = Some (Notify "home-h1")
  /\ dict_get "signal_name" [("name", "home"); ("home_id", "h1"); ("signal_name", "home-h1")]
     = Some "home-h1".
Proof.
  destruct (notification_on_registered_signal (api := quiet_api)
              "home" "signal_name" demo_base demo_home ALARM_TYPE
              (ArmAway None) demo_store demo_armed eq_refl eq_refl eq_refl)
    as (publisher & _ & _ & Hlast).
  split; [exact Hlast | reflexivity].
Defined.
